(** * Reka Research MCP server: the request-handling contract of
      [src/api/server.ts], as a shallow embedding.

    The file follows the source top-down: the JavaScript values the code
    inspects, the effects it performs (reading [process.env], one [fetch]),
    the two upstream clients [verifyClaimWithReka] and [findSimilarWithReka],
    the credential resolution both tool handlers repeat, the two handlers and
    the schema-checked dispatch in front of them.

    Strings are Rocq strings, read as the UTF-8 bytes of the JavaScript
    string.  The only positional string operations of the source are
    [startsWith('Bearer ')] and [slice(7)]; the prefix is seven ASCII
    characters, so seven UTF-16 code units are exactly seven bytes and both
    operations agree with their byte-level versions.

    The [logger] calls only write to the console: they take no part in control
    flow or in any returned value, and are left out. *)

From Stdlib Require Import Floats.PrimFloat Strings.Ascii Strings.String.
From stdpp Require Import base option strings gmap list pretty.

#[local] Set Warnings "-register-all".

(** ** JavaScript values and completions *)

Module Js.

(** The values [response.json()] can produce, plus [undefined], which
    property reads produce.  Numbers are IEEE 754 binary64, as in
    JavaScript; an object is a finite map from property names. *)
Inductive Value : Type :=
  | Undefined
  | Null
  | Boolean (b : bool)
  | Number (x : float)
  | Str (s : string)
  | Array (items : list Value)
  | Object (props : gmap string Value).

(** What a [throw] carries.  The handlers only ask [error instanceof Error]
    and read [error.message]. *)
Inductive Thrown : Type :=
  | ErrorInstance (message : string)
  | NotAnError.

Inductive Completion (A : Type) : Type :=
  | Normal (a : A)
  | Throw (e : Thrown).
Arguments Normal {A} a.
Arguments Throw {A} e.

Definition dquote : string := String "034"%char EmptyString.
Definition newline : string := String "010"%char EmptyString.

(** Message of the [TypeError] Node.js (V8) raises when a property of
    [undefined] or [null] is read. *)
Definition cannot_read (base key : string) : Thrown :=
  ErrorInstance
    ("Cannot read properties of " +:+ base +:+ " (reading '" +:+ key +:+ "')").

(** [v.key] for a name that is not a built-in property of strings, numbers,
    booleans or arrays; the source reads [choices], [message] and
    [content]. *)
Definition get_prop (v : Value) (key : string) : Completion Value :=
  match v with
  | Undefined => Throw (cannot_read "undefined" key)
  | Null => Throw (cannot_read "null" key)
  | Object props => Normal (default Undefined (props !! key))
  | Boolean _ | Number _ | Str _ | Array _ => Normal Undefined
  end.

(** [v[i]] for a literal index [i]. *)
Definition get_index (v : Value) (i : nat) : Completion Value :=
  match v with
  | Undefined => Throw (cannot_read "undefined" (pretty i))
  | Null => Throw (cannot_read "null" (pretty i))
  | Array items => Normal (default Undefined (items !! i))
  | Object props => Normal (default Undefined (props !! pretty i))
  | Str s =>
      Normal (match String.get i s with
              | Some c => Str (String c EmptyString)
              | None => Undefined
              end)
  | Boolean _ | Number _ => Normal Undefined
  end.

Definition is_nullish (v : Value) : bool :=
  match v with
  | Undefined | Null => true
  | _ => false
  end.

(** [v?.key]: [undefined] on a nullish [v], the property otherwise (a read
    on a value that is not nullish never throws). *)
Definition opt_chain (v : Value) (key : string) : Value :=
  if is_nullish v then Undefined
  else match get_prop v key with
       | Normal w => w
       | Throw _ => Undefined
       end.

(** ToBoolean. *)
Definition truthy (v : Value) : bool :=
  match v with
  | Undefined | Null => false
  | Boolean b => b
  | Number x => negb (PrimFloat.eqb x 0%float || PrimFloat.is_nan x)
  | Str s => negb (String.eqb s EmptyString)
  | Array _ | Object _ => true
  end.

(** [a || b] *)
Definition or_else (a b : Value) : Value := if truthy a then a else b.

(** [s.startsWith(p)] and [s.slice(start)] for [start >= 0]. *)
Definition startsWith (s p : string) : bool := String.prefix p s.

Fixpoint slice (start : nat) (s : string) : string :=
  match start, s with
  | O, _ => s
  | S n, String _ s' => slice n s'
  | S _, EmptyString => EmptyString
  end.

(** [!k] for [k : string | undefined]. *)
Definition falsy_key (k : option string) : bool :=
  match k with
  | None => true
  | Some s => String.eqb s EmptyString
  end.

End Js.
Import Js.

(** ** The HTTP exchange with the completion endpoint *)

Module Http.

Record Message := { role : string; content : string }.

Record Payload := { model : string; messages : list Message }.

(** The argument of [fetch].  [body] is the payload object; on the wire it
    is its [JSON.stringify] image. *)
Record Request := {
  url : string;
  method : string;
  headers : list (string * string);
  body : Payload
}.

(** A [Response] as the source uses it: the status line, and what
    [await response.text()] and [await response.json()] complete with
    (either may reject: a broken body stream, a body that is not JSON). *)
Record Response := {
  status : N;
  statusText : string;
  text : Completion string;
  json : Completion Value
}.

(** [response.ok]: the status is in the range 200-299. *)
Definition ok (r : Response) : bool :=
  (200 <=? status r)%N && (status r <=? 299)%N.

Definition header (name : string) (r : Request) : option string :=
  (λ found, found.2.2) <$> list_find (λ h, h.1 = name) (headers r).

End Http.

(** ** Effects: the process environment, the network, and the calls made *)

Record Env := {
  (** [process.env.REKA_API_KEY] *)
  REKA_API_KEY : option string;
  (** what [fetch] completes with for a request *)
  fetch : Http.Request → Completion Http.Response
}.

(** An asynchronous computation reads the environment, completes normally or
    by throwing, and leaves the list of upstream requests it issued. *)
Definition Async (A : Type) : Type := Env → Completion A * list Http.Request.

#[export] Instance Async_ret : MRet Async := λ A a _, (Normal a, []).

#[export] Instance Async_bind : MBind Async := λ A B k m env,
  match m env with
  | (Normal a, t1) => let '(r, t2) := k a env in (r, t1 ++ t2)
  | (Throw e, t1) => (Throw e, t1)
  end.

Definition throw {A} (e : Thrown) : Async A := λ _, (Throw e, []).

(** [await] of a promise whose completion is already determined. *)
Definition await {A} (c : Completion A) : Async A := λ _, (c, []).

(** [try { m } catch (error) { h error }] *)
Definition try_catch {A} (m : Async A) (h : Thrown → Async A) : Async A :=
  λ env,
    match m env with
    | (Normal a, t1) => (Normal a, t1)
    | (Throw e, t1) => let '(r, t2) := h e env in (r, t1 ++ t2)
    end.

Definition await_fetch (req : Http.Request) : Async Http.Response :=
  λ env, (fetch env req, [req]).

Definition process_env_REKA_API_KEY : Async (option string) :=
  λ env, (Normal (REKA_API_KEY env), []).

(** ** Upstream client *)

Definition endpoint : string := "https://api.reka.ai/v1/chat/completions".

(** The prompt of [verifyClaimWithReka]: the template literal up to
    [${claim}]. *)
Definition verify_framing : string :=
  "Analyze the given claim and provide a verification assessment. Return your response as a JSON object with 'verdict' (true/false/uncertain), 'confidence' (0-1), and 'reasoning' fields. Please verify this claim: ".

Definition verify_requestPayload (claim : string) : Http.Payload :=
  {| Http.model := "reka-flash-research";
     Http.messages :=
       [ {| Http.role := "user"; Http.content := verify_framing +:+ claim |} ] |}.

(** The prompt of [findSimilarWithReka], a template literal over five lines
    in which [${attribute}] occurs twice, the second time between double
    quotes. *)
Definition similar_content (target attribute : string) : string :=
  "Find items similar to the given target based on the specified attribute. Provide a detailed analysis and list of similar items with explanations."
  +:+ newline +:+ newline
  +:+ "Target: " +:+ target +:+ newline
  +:+ "Attribute to compare: " +:+ attribute +:+ newline +:+ newline
  +:+ "Analyze the target and find similar items based on the "
  +:+ dquote +:+ attribute +:+ dquote
  +:+ " attribute. Provide concrete examples and explain why they are similar.".

Definition similar_requestPayload (target attribute : string) : Http.Payload :=
  {| Http.model := "reka-flash-research";
     Http.messages :=
       [ {| Http.role := "user";
            Http.content := similar_content target attribute |} ] |}.

Definition post_request (requestPayload : Http.Payload) (rekaApiKey : string)
  : Http.Request :=
  {| Http.url := endpoint;
     Http.method := "POST";
     Http.headers := [ ("Content-Type", "application/json");
                       ("Authorization", "Bearer " +:+ rekaApiKey) ];
     Http.body := requestPayload |}.

(** [data.choices[0]?.message?.content || "No response received"];
    [data.choices] and [[0]] are plain reads and throw on [undefined] and
    [null], the two [?.] do not. *)
Definition extract_result (data : Value) : Completion Value :=
  match get_prop data "choices" with
  | Throw e => Throw e
  | Normal choices =>
      match get_index choices 0 with
      | Throw e => Throw e
      | Normal first =>
          Normal (or_else (opt_chain (opt_chain first "message") "content")
                          (Str "No response received"))
      end
  end.

(** Lines 40-73 of [verifyClaimWithReka], which lines 100-133 of
    [findSimilarWithReka] repeat word for word: send the payload, raise on a
    status that is not ok (after reading the body, which goes to the log
    only), otherwise parse the body and extract the result. *)
Definition send_and_extract (requestPayload : Http.Payload)
    (rekaApiKey : string) : Async Value :=
  response ← await_fetch (post_request requestPayload rekaApiKey);
  if negb (Http.ok response) then
    errorText ← await (Http.text response);
    throw (ErrorInstance ("Reka API error: " +:+ pretty (Http.status response)
                          +:+ " " +:+ Http.statusText response))
  else
    data ← await (Http.json response);
    result ← await (extract_result data);
    mret result.

Definition verifyClaimWithReka (claim rekaApiKey : string) : Async Value :=
  send_and_extract (verify_requestPayload claim) rekaApiKey.

Definition findSimilarWithReka (target attribute rekaApiKey : string)
  : Async Value :=
  send_and_extract (similar_requestPayload target attribute) rekaApiKey.

(** ** Tool handlers *)

Module Mcp.

(** A header value is [string | string[] | undefined]; an absent or
    [undefined] entry is a key the map does not have. *)
Inductive HeaderValue : Type :=
  | Single (v : string)
  | Multiple (vs : list string).

Record RequestInfo := { headers : option (gmap string HeaderValue) }.

(** The second argument of a tool callback. *)
Record Context := { requestInfo : option RequestInfo }.

Record ContentBlock := { type : string; text : Value }.

Record ToolResult := { content : list ContentBlock }.

Definition text_result (t : Value) : ToolResult :=
  {| content := [ {| type := "text"; text := t |} ] |}.

End Mcp.

(** [context?.requestInfo?.headers] *)
Definition context_headers (context : option Mcp.Context)
  : option (gmap string Mcp.HeaderValue) :=
  match context with
  | Some c =>
      match Mcp.requestInfo c with
      | Some info => Mcp.headers info
      | None => None
      end
  | None => None
  end.

(** [if (rawAuthHeader)]: the empty string is falsy, every array is truthy. *)
Definition header_truthy (raw : Mcp.HeaderValue) : bool :=
  match raw with
  | Mcp.Single v => negb (String.eqb v EmptyString)
  | Mcp.Multiple _ => true
  end.

(** [Array.isArray(rawAuthHeader) ? rawAuthHeader[0] : rawAuthHeader];
    [None] is [undefined], for which [typeof authHeader === 'string'] is
    false. *)
Definition first_value (raw : Mcp.HeaderValue) : option string :=
  match raw with
  | Mcp.Single v => Some v
  | Mcp.Multiple vs => head vs
  end.

(** [a ?? b] on header lookups. *)
Definition nullish_or {A} (a b : option A) : option A :=
  match a with
  | Some x => Some x
  | None => b
  end.

(** The value of [rekaApiKey] when the handler reaches [if (!rekaApiKey)]
    (lines 152-165, repeated at lines 218-231), from the value read from
    [process.env.REKA_API_KEY]. *)
Definition resolveApiKey (configured : option string)
    (context : option Mcp.Context) : option string :=
  let rekaApiKey := configured in
  match context_headers context with
  | Some headers =>
      match nullish_or (headers !! "Authorization")
                       (headers !! "authorization") with
      | Some rawAuthHeader =>
          if header_truthy rawAuthHeader then
            match first_value rawAuthHeader with
            | Some authHeader =>
                if startsWith authHeader "Bearer "
                then Some (slice 7 authHeader)
                else rekaApiKey
            | None => rekaApiKey
            end
          else rekaApiKey
      | None => rekaApiKey
      end
  | None => rekaApiKey
  end.

Definition missing_key_message : string :=
  "REKA_API_KEY must be provided via environment variable 'REKA_API_KEY' or Authorization header".

(** [error instanceof Error ? error.message : 'Unknown error'] *)
Definition error_text (error : Thrown) : string :=
  match error with
  | ErrorInstance message => message
  | NotAnError => "Unknown error"
  end.

(** The [try] block both handlers share up to the upstream call: resolve the
    key, throw when it is falsy, otherwise run the client and wrap its
    result. *)
Definition with_api_key (context : option Mcp.Context)
    (client : string → Async Value) : Async Mcp.ToolResult :=
  configured ← process_env_REKA_API_KEY;
  match resolveApiKey configured context with
  | Some rekaApiKey =>
      if String.eqb rekaApiKey EmptyString
      then throw (ErrorInstance missing_key_message)
      else result ← client rekaApiKey; mret (Mcp.text_result result)
  | None => throw (ErrorInstance missing_key_message)
  end.

(** The callback registered for [verify_claim]. *)
Definition verify_claim_handler (claim : string)
    (context : option Mcp.Context) : Async Mcp.ToolResult :=
  try_catch
    (with_api_key context (verifyClaimWithReka claim))
    (λ error,
       mret (Mcp.text_result
               (Str ("Error verifying claim: " +:+ error_text error)))).

(** The callback registered for [find_similar]. *)
Definition find_similar_handler (target attribute : string)
    (context : option Mcp.Context) : Async Mcp.ToolResult :=
  try_catch
    (with_api_key context (findSimilarWithReka target attribute))
    (λ error,
       mret (Mcp.text_result
               (Str ("Error finding similar items: " +:+ error_text error)))).

(** ** Dispatch: schema validation in front of the handlers *)

Inductive Tool : Type := verify_claim | find_similar.

(** Arguments after validation against the declared shape. *)
Inductive Args : Type :=
  | VerifyClaimArgs (claim : string)
  | FindSimilarArgs (target attribute : string).

(** [z.string()]: the field must be present and a string; nothing else is
    asked of it. *)
Definition z_string (v : option Value) : option string :=
  match v with
  | Some (Str s) => Some s
  | _ => None
  end.

(** The shapes given to [server.tool]: [{ claim: z.string() }] and
    [{ target: z.string(), attribute: z.string() }]. *)
Definition parse_arguments (tool : Tool) (arguments : gmap string Value)
  : option Args :=
  match tool with
  | verify_claim =>
      claim ← z_string (arguments !! "claim");
      Some (VerifyClaimArgs claim)
  | find_similar =>
      target ← z_string (arguments !! "target");
      attribute ← z_string (arguments !! "attribute");
      Some (FindSimilarArgs target attribute)
  end.

Definition handler (args : Args) (context : option Mcp.Context)
  : Async Mcp.ToolResult :=
  match args with
  | VerifyClaimArgs claim => verify_claim_handler claim context
  | FindSimilarArgs target attribute =>
      find_similar_handler target attribute context
  end.

(** The client each handler runs once it holds a key. *)
Definition upstream_client (args : Args) (rekaApiKey : string) : Async Value :=
  match args with
  | VerifyClaimArgs claim => verifyClaimWithReka claim rekaApiKey
  | FindSimilarArgs target attribute =>
      findSimilarWithReka target attribute rekaApiKey
  end.

Inductive ProtocolError : Type :=
  | InvalidArguments
  | HandlerThrew (e : Thrown).

Inductive CallOutcome : Type :=
  | Failed (e : ProtocolError)
  | Returned (r : Mcp.ToolResult).

(** A tool call as the host library runs it: the arguments are checked
    against the tool's shape before the callback is entered; a mismatch, like
    anything a callback throws, is answered with a protocol-level error. *)
Definition callTool (tool : Tool) (arguments : gmap string Value)
    (context : option Mcp.Context) (env : Env)
  : CallOutcome * list Http.Request :=
  match parse_arguments tool arguments with
  | None => (Failed InvalidArguments, [])
  | Some args =>
      match handler args context env with
      | (Normal r, calls) => (Returned r, calls)
      | (Throw e, calls) => (Failed (HandlerThrew e), calls)
      end
  end.

(** The payload each tool sends. *)
Definition requestPayload (args : Args) : Http.Payload :=
  match args with
  | VerifyClaimArgs claim => verify_requestPayload claim
  | FindSimilarArgs target attribute => similar_requestPayload target attribute
  end.

(** The prefix each handler puts in front of an error's description. *)
Definition error_prefix (args : Args) : string :=
  match args with
  | VerifyClaimArgs _ => "Error verifying claim: "
  | FindSimilarArgs _ _ => "Error finding similar items: "
  end.

(** [s.includes(t)] *)
Fixpoint includes (s t : string) : bool :=
  String.prefix t s
  || match s with
     | EmptyString => false
     | String _ s' => includes s' t
     end.

(** ** The specification's reading of credential resolution *)

(** The Authorization header of an invocation: the entry under
    ['Authorization'] or, when there is none, under ['authorization'], and
    its first element when it is an array. *)
Definition authorization_header (context : option Mcp.Context)
  : option string :=
  match context_headers context with
  | Some headers =>
      match nullish_or (headers !! "Authorization")
                       (headers !! "authorization") with
      | Some raw => first_value raw
      | None => None
      end
  | None => None
  end.

(** The key a well-formed bearer header yields. *)
Definition bearer_token (context : option Mcp.Context) : option string :=
  match authorization_header context with
  | Some v => if startsWith v "Bearer " then Some (slice 7 v) else None
  | None => None
  end.

(** Precedence as the specification words it: the configured key, unless a
    well-formed bearer header overrides it. *)
Definition spec_resolve (configured : option string)
    (context : option Mcp.Context) : option string :=
  match bearer_token context with
  | Some token => Some token
  | None => configured
  end.

(** ** Sample invocations *)

(** A context whose request carries the given headers. *)
Definition context_with (headers : gmap string Mcp.HeaderValue)
  : option Mcp.Context :=
  Some {| Mcp.requestInfo := Some {| Mcp.headers := Some headers |} |}.

(** An environment whose network answers every request with [response]. *)
Definition answering (configured : option string) (response : Http.Response)
  : Env :=
  {| REKA_API_KEY := configured; fetch := λ _, Normal response |}.

(** HTTP 200 with the body [{}]. *)
Definition ok_empty_object : Http.Response :=
  {| Http.status := 200; Http.statusText := "OK";
     Http.text := Normal "{}"; Http.json := Normal (Object ∅) |}.

(** HTTP 200 with a body whose [choices] is the empty array. *)
Definition ok_empty_choices : Http.Response :=
  {| Http.status := 200; Http.statusText := "OK";
     Http.text := Normal ("{" +:+ dquote +:+ "choices" +:+ dquote +:+ ":[]}");
     Http.json := Normal (Object {[ "choices" := Array [] ]}) |}.

(** HTTP 200 whose first choice carries [content], a string without
    characters that JSON escapes. *)
Definition ok_with_content (content : string) : Http.Response :=
  {| Http.status := 200; Http.statusText := "OK";
     Http.text :=
       Normal ("{" +:+ dquote +:+ "choices" +:+ dquote +:+ ":[{"
               +:+ dquote +:+ "message" +:+ dquote +:+ ":{"
               +:+ dquote +:+ "content" +:+ dquote +:+ ":"
               +:+ dquote +:+ content +:+ dquote +:+ "}}]}");
     Http.json :=
       Normal (Object {[ "choices" :=
         Array [ Object {[ "message" :=
           Object {[ "content" := Str content ]} ]} ] ]}) |}.

(** HTTP 401 with the body [[]], and with the body [null]. *)
Definition unauthorized_a : Http.Response :=
  {| Http.status := 401; Http.statusText := "Unauthorized";
     Http.text := Normal "[]"; Http.json := Normal (Array []) |}.

Definition unauthorized_b : Http.Response :=
  {| Http.status := 401; Http.statusText := "Unauthorized";
     Http.text := Normal "null"; Http.json := Normal Null |}.

(** HTTP 401 whose body stream breaks while it is read. *)
Definition unauthorized_broken : Http.Response :=
  {| Http.status := 401; Http.statusText := "Unauthorized";
     Http.text := Throw (ErrorInstance "terminated");
     Http.json := Throw (ErrorInstance "terminated") |}.

(** ** Header values as the route hands them over *)

(** The tool callbacks are entered only through the exported route handler
    (line 284), so the header values in [context.requestInfo.headers] are
    values of an HTTP request: HTTP parsing and the Fetch [Headers] class
    strip leading and trailing HTTP whitespace (space, tab, CR, LF) from
    every value. *)
Definition is_http_whitespace (c : ascii) : bool :=
  match c with
  | " " | "009" | "010" | "013" => true
  | _ => false
  end%char.

Fixpoint last_char (s : string) : option ascii :=
  match s with
  | EmptyString => None
  | String c rest =>
      match rest with
      | EmptyString => Some c
      | String _ _ => last_char rest
      end
  end.

(** A value with no whitespace at either end. *)
Definition http_trimmed (v : string) : bool :=
  match v with
  | EmptyString => true
  | String c _ => negb (is_http_whitespace c)
  end
  && match last_char v with
     | Some c => negb (is_http_whitespace c)
     | None => true
     end.

(** ** The test clients *)

(** [main] of the two sample clients: the SSE client and the streamable-HTTP
    client.  They differ in the transport path, in the claim they try and in
    the wording of their console lines; the console lines are left out. *)
Module TestClient.

Inductive Script : Type := Sse | StreamableHttp.

Definition default_origin : string :=
  "https://reka-research-mcp-server.vercel.app".

(** [process.argv[2] || "https://..."] *)
Definition origin (argv2 : option string) : string :=
  match argv2 with
  | Some given => if String.eqb given EmptyString then default_origin else given
  | None => default_origin
  end.

Definition path (script : Script) : string :=
  match script with
  | Sse => "/sse"
  | StreamableHttp => "/mcp"
  end.

Definition testClaim (script : Script) : string :=
  match script with
  | Sse => "The Earth is round"
  | StreamableHttp => "Water boils at 100Â°C at sea level"
  end.

(** What a rejected promise carries, as far as [catch (error)] looks at it:
    [error.message] reads a message off an [Error], [undefined] off any other
    value that is not nullish, and throws on [null] and [undefined]. *)
Inductive Rejection : Type :=
  | RejectError (message : string)
  | RejectOther
  | RejectNullish.

Inductive Settled (A : Type) : Type :=
  | Resolved (a : A)
  | Rejected (r : Rejection).
Arguments Resolved {A} a.
Arguments Rejected {A} r.

Record ToolInfo := { name : string }.

(** The result of [client.listTools()]; [tools] may be missing, which
    [result.tools?.some] allows for. *)
Record ListToolsResult := { tools : option (list ToolInfo) }.

(** The platform and the SDK client as [main] uses them. *)
Record Sdk := {
  (** whether [new URL(href)] accepts [href] *)
  url_parses : string → bool;
  connect : string → Settled unit;
  listTools : Settled ListToolsResult;
  callTool : string → string → Settled Value
}.

(** The requests [main] makes of the server, in order. *)
Inductive Interaction : Type :=
  | Connect (href : string)
  | ListTools
  | CallTool (tool claim : string).

Inductive Exit : Type :=
  | Completed
  | ExitCode (code : nat)
  | UnhandledRejection.

(** The [catch] block: print [error.message], then [process.exit(1)]. *)
Definition on_error (error : Rejection) : Exit :=
  match error with
  | RejectError _ | RejectOther => ExitCode 1
  | RejectNullish => UnhandledRejection
  end.

(** [result.tools?.some(tool => tool.name === 'verify_claim')] *)
Definition lists_verify_claim (result : ListToolsResult) : bool :=
  match tools result with
  | Some ts => existsb (λ tool, String.eqb (name tool) "verify_claim") ts
  | None => false
  end.

Definition main (script : Script) (argv2 : option string) (sdk : Sdk)
  : Exit * list Interaction :=
  let href := origin argv2 +:+ path script in
  if negb (url_parses sdk href) then (UnhandledRejection, [])
  else
    match connect sdk href with
    | Rejected error => (on_error error, [Connect href])
    | Resolved _ =>
        match listTools sdk with
        | Rejected error => (on_error error, [Connect href; ListTools])
        | Resolved result =>
            if lists_verify_claim result then
              match callTool sdk "verify_claim" (testClaim script) with
              | Rejected error =>
                  (on_error error,
                   [Connect href; ListTools;
                    CallTool "verify_claim" (testClaim script)])
              | Resolved _ =>
                  (Completed,
                   [Connect href; ListTools;
                    CallTool "verify_claim" (testClaim script)])
              end
            else (Completed, [Connect href; ListTools])
        end
    end.

(** A server that answers every step: it lists both tools and resolves the
    call with [answer]. *)
Definition healthy (answer : Value) : Sdk :=
  {| url_parses := λ _, true;
     connect := λ _, Resolved tt;
     listTools :=
       Resolved {| tools := Some [ {| name := "verify_claim" |};
                                   {| name := "find_similar" |} ] |};
     callTool := λ _ _, Resolved answer |}.

End TestClient.

(** ** More sample invocations *)

(** An environment whose network call itself fails. *)
Definition failing (configured : option string) (error : Thrown) : Env :=
  {| REKA_API_KEY := configured; fetch := λ _, Throw error |}.

(** HTTP 200 whose body is not JSON, so that [response.json()] rejects. *)
Definition ok_not_json : Http.Response :=
  {| Http.status := 200; Http.statusText := "OK";
     Http.text := Normal "<html>";
     Http.json :=
       Throw (ErrorInstance "Unexpected token < in JSON at position 0") |}.

(** HTTP 200 whose first choice carries a number as content. *)
Definition ok_with_number : Http.Response :=
  {| Http.status := 200; Http.statusText := "OK";
     Http.text :=
       Normal ("{" +:+ dquote +:+ "choices" +:+ dquote +:+ ":[{"
               +:+ dquote +:+ "message" +:+ dquote +:+ ":{"
               +:+ dquote +:+ "content" +:+ dquote +:+ ":42}}]}");
     Http.json :=
       Normal (Object {[ "choices" :=
         Array [ Object {[ "message" :=
           Object {[ "content" := Number 42%float ]} ]} ] ]}) |}.

(** * Properties *)

(** ** Strings *)

Lemma append_cons a s t : String a s +:+ t = String a (s +:+ t).
Proof. reflexivity. Qed.

Lemma append_empty_r s : s +:+ EmptyString = s.
Proof. induction s as [|a s IH]; [done|]. by rewrite append_cons, IH. Qed.

Lemma append_assoc s t u : (s +:+ t) +:+ u = s +:+ t +:+ u.
Proof. induction s as [|a s IH]; [done|]. by rewrite !append_cons, IH. Qed.

Lemma prefix_empty s : String.prefix EmptyString s = true.
Proof. by destruct s. Qed.

Lemma prefix_append t post : String.prefix t (t +:+ post) = true.
Proof.
  induction t as [|a t IH]; [apply prefix_empty|].
  rewrite append_cons. simpl. by destruct (ascii_dec a a).
Qed.

Lemma includes_prefix s t : String.prefix t s = true → includes s t = true.
Proof. intros H. destruct s; unfold includes; fold includes; by rewrite H. Qed.

Lemma includes_here t post : includes (t +:+ post) t = true.
Proof. apply includes_prefix, prefix_append. Qed.

Lemma includes_append pre s t : includes s t = true → includes (pre +:+ s) t = true.
Proof.
  intros H. induction pre as [|a pre IH]; [done|].
  rewrite append_cons. simpl. rewrite IH. apply orb_true_r.
Qed.

Lemma includes_middle pre t post : includes (pre +:+ t +:+ post) t = true.
Proof. apply includes_append, includes_here. Qed.

Lemma includes_suffix pre t : includes (pre +:+ t) t = true.
Proof. rewrite <- (append_empty_r t) at 1. apply includes_middle. Qed.

Lemma startsWith_slice v p :
  startsWith v p = true → v = p +:+ slice (String.length p) v.
Proof.
  unfold startsWith. revert v.
  induction p as [|a p IH]; intros v H; [done|].
  destruct v as [|b v]; simpl in H; [done|].
  destruct (ascii_dec a b) as [->|]; [|done].
  rewrite append_cons. simpl. f_equal. by apply IH.
Qed.

(** ** The monadic code, flattened *)

Lemma send_and_extract_unfold payload key env :
  send_and_extract payload key env =
    (match fetch env (post_request payload key) with
     | Throw e => Throw e
     | Normal response =>
         if Http.ok response then
           match Http.json response with
           | Throw e => Throw e
           | Normal data => extract_result data
           end
         else
           match Http.text response with
           | Throw e => Throw e
           | Normal _ =>
               Throw (ErrorInstance
                        ("Reka API error: " +:+ pretty (Http.status response)
                         +:+ " " +:+ Http.statusText response))
           end
     end, [post_request payload key]).
Proof.
  unfold send_and_extract, mbind, Async_bind, await_fetch, await, throw, mret,
    Async_ret.
  destruct (fetch env _) as [response|e]; [|done].
  destruct (Http.ok response); simpl.
  - destruct (Http.json response) as [data|e]; [|done].
    by destruct (extract_result data).
  - by destruct (Http.text response).
Qed.

Lemma upstream_client_unfold args key :
  upstream_client args key = send_and_extract (requestPayload args) key.
Proof. by destruct args. Qed.

Lemma upstream_client_calls args key env :
  (upstream_client args key env).2 = [post_request (requestPayload args) key].
Proof. by rewrite upstream_client_unfold, send_and_extract_unfold. Qed.

Lemma with_api_key_unfold context client env :
  with_api_key context client env =
    match resolveApiKey (REKA_API_KEY env) context with
    | Some rekaApiKey =>
        if String.eqb rekaApiKey EmptyString
        then (Throw (ErrorInstance missing_key_message), [])
        else match client rekaApiKey env with
             | (Normal result, calls) => (Normal (Mcp.text_result result), calls)
             | (Throw e, calls) => (Throw e, calls)
             end
    | None => (Throw (ErrorInstance missing_key_message), [])
    end.
Proof.
  unfold with_api_key, mbind, Async_bind, process_env_REKA_API_KEY, throw,
    mret, Async_ret.
  destruct (resolveApiKey _ _) as [k|]; [|done].
  destruct (String.eqb k _); [done|].
  destruct (client k env) as [[result|e] calls]; [|done].
  simpl. by rewrite app_nil_r.
Qed.

Lemma handler_unfold args context env :
  handler args context env =
    match with_api_key context (upstream_client args) env with
    | (Normal r, calls) => (Normal r, calls)
    | (Throw e, calls) =>
        (Normal (Mcp.text_result (Str (error_prefix args +:+ error_text e))),
         calls)
    end.
Proof.
  destruct args as [claim|target attribute];
    [ change (upstream_client _) with (verifyClaimWithReka claim)
    | change (upstream_client _) with (findSimilarWithReka target attribute) ];
    simpl;
    unfold verify_claim_handler, find_similar_handler, try_catch, mret,
      Async_ret;
    match goal with |- context [with_api_key ?c ?k env] =>
      destruct (with_api_key c k env) as [[r|e] calls] end;
    simpl; by rewrite ?app_nil_r.
Qed.

(** Resolution never looks at anything but the selected header. *)
Lemma resolveApiKey_spec configured context :
  resolveApiKey configured context = spec_resolve configured context.
Proof.
  unfold resolveApiKey, spec_resolve, bearer_token, authorization_header.
  destruct (context_headers context) as [headers|]; [|done].
  destruct (nullish_or _ _) as [[v|vs]|]; simpl; [| |done].
  - destruct (String.eqb_spec v EmptyString) as [->|_]; simpl; [done|].
    by destruct (startsWith v _).
  - destruct (head vs) as [v|]; simpl; [|done]. by destruct (startsWith v _).
Qed.

(** Both handlers always complete normally, with one text block. *)
Lemma handler_returns args context env :
  ∃ t calls, handler args context env = (Normal (Mcp.text_result t), calls).
Proof.
  rewrite handler_unfold, with_api_key_unfold.
  destruct (resolveApiKey _ _) as [k|]; [|by eauto].
  destruct (String.eqb k _); [by eauto|].
  destruct (upstream_client args k env) as [[result|e] calls]; by eauto.
Qed.

Lemma handler_missing_key args context env :
  falsy_key (resolveApiKey (REKA_API_KEY env) context) = true →
  handler args context env =
    (Normal (Mcp.text_result (Str (error_prefix args +:+ missing_key_message))),
     []).
Proof.
  intros H. rewrite handler_unfold, with_api_key_unfold.
  destruct (resolveApiKey _ _) as [k|]; simpl in *; [|done].
  by rewrite H.
Qed.

Lemma handler_with_key args context env key :
  resolveApiKey (REKA_API_KEY env) context = Some key →
  key ≠ EmptyString →
  handler args context env =
    match upstream_client args key env with
    | (Normal v, calls) => (Normal (Mcp.text_result v), calls)
    | (Throw e, calls) =>
        (Normal (Mcp.text_result (Str (error_prefix args +:+ error_text e))),
         calls)
    end.
Proof.
  intros Hkey Hne. rewrite handler_unfold, with_api_key_unfold, Hkey.
  apply String.eqb_neq in Hne. rewrite Hne.
  by destruct (upstream_client args key env) as [[v|e] calls].
Qed.

Lemma handler_calls_with_key args context env key :
  resolveApiKey (REKA_API_KEY env) context = Some key →
  key ≠ EmptyString →
  (handler args context env).2 = [post_request (requestPayload args) key].
Proof.
  intros Hkey Hne. rewrite (handler_with_key _ _ _ _ Hkey Hne).
  pose proof (upstream_client_calls args key env) as Hcalls.
  by destruct (upstream_client args key env) as [[v|e] calls].
Qed.

Lemma callTool_valid tool arguments args context env :
  parse_arguments tool arguments = Some args →
  ∃ t, callTool tool arguments context env =
         (Returned (Mcp.text_result t), (handler args context env).2)
       ∧ handler args context env =
         (Normal (Mcp.text_result t), (handler args context env).2).
Proof.
  intros Hargs. unfold callTool. rewrite Hargs.
  destruct (handler_returns args context env) as (t & calls & ->).
  by exists t.
Qed.

Lemma missing_key_message_includes args :
  includes (error_prefix args +:+ missing_key_message)
           "REKA_API_KEY must be provided" = true.
Proof. by destruct args; vm_compute. Qed.

(** ** The claims *)

(** C1: every call of [verify_claim] or [find_similar] whose arguments pass
    schema validation returns a protocol-level successful response with
    exactly one content block of type "text", whatever the environment does
    (upstream success, missing credential, upstream HTTP or transport
    failure); a protocol-level error is raised only for arguments that fail
    validation, and then it is the invalid-arguments error. *)
Theorem C1_valid_calls_return_one_text_block
    tool arguments context env :
  (is_Some (parse_arguments tool arguments) →
     ∃ t calls, callTool tool arguments context env =
       (Returned {| Mcp.content := [ {| Mcp.type := "text"; Mcp.text := t |} ] |},
        calls))
  ∧ (∀ e calls, callTool tool arguments context env = (Failed e, calls) →
       parse_arguments tool arguments = None ∧ e = InvalidArguments)
  ∧ (parse_arguments tool arguments = None →
       callTool tool arguments context env = (Failed InvalidArguments, [])).
Proof.
  split; [|split].
  - intros [args Hargs].
    destruct (callTool_valid _ _ _ context env Hargs) as (t & -> & _).
    by eauto.
  - intros e calls. destruct (parse_arguments tool arguments) as [args|] eqn:Hargs.
    + destruct (callTool_valid _ _ _ context env Hargs) as (t & -> & _). done.
    + unfold callTool. rewrite Hargs. by intros [= <- <-].
  - intros Hargs. unfold callTool. by rewrite Hargs.
Qed.

Lemma C1_witness :
  ∃ t calls,
    callTool verify_claim {[ "claim" := Str "The Earth is round" ]} None
      (answering (Some "K1") unauthorized_a) =
    (Returned {| Mcp.content := [ {| Mcp.type := "text"; Mcp.text := t |} ] |},
     calls).
Proof.
  apply (proj1 (C1_valid_calls_return_one_text_block
                  verify_claim {[ "claim" := Str "The Earth is round" ]} None
                  (answering (Some "K1") unauthorized_a))).
  vm_compute. eauto.
Defined.

Lemma bearer_token_of_bearer context K2 :
  authorization_header context = Some ("Bearer " +:+ K2) →
  bearer_token context = Some K2.
Proof.
  intros H. unfold bearer_token, startsWith. by rewrite H, prefix_append.
Qed.

Lemma bearer_token_of_other_scheme context K2 :
  authorization_header context = Some ("Token " +:+ K2) →
  bearer_token context = None.
Proof. intros H. unfold bearer_token. by rewrite H. Qed.

Lemma post_request_authorization payload key :
  Http.header "Authorization" (post_request payload key)
  = Some ("Bearer " +:+ key).
Proof. reflexivity. Qed.

(** C2: credential resolution is the precedence the specification words
    ([spec_resolve]): the configured key by default; the text after
    ['Bearer '] when the Authorization header (under ['Authorization'], else
    under ['authorization'], first element of an array) starts with that
    prefix; the configured key again for any other header value.  With
    configured key anything and header [Bearer K2] the one upstream request
    is authorised with [K2]; with configured key [K1] and header [Token K2]
    it is authorised with [K1]. *)
Theorem C2_bearer_header_overrides_configured_key :
  (∀ configured context,
     resolveApiKey configured context = spec_resolve configured context)
  ∧ (∀ configured context v,
       authorization_header context = Some v →
       resolveApiKey configured context =
         if startsWith v "Bearer " then Some (slice 7 v) else configured)
  ∧ (∀ args context env K2,
       authorization_header context = Some ("Bearer " +:+ K2) →
       K2 ≠ EmptyString →
       ∃ req, (handler args context env).2 = [req]
              ∧ Http.header "Authorization" req = Some ("Bearer " +:+ K2))
  ∧ (∀ args context env K1 K2,
       REKA_API_KEY env = Some K1 →
       K1 ≠ EmptyString →
       authorization_header context = Some ("Token " +:+ K2) →
       ∃ req, (handler args context env).2 = [req]
              ∧ Http.header "Authorization" req = Some ("Bearer " +:+ K1)).
Proof.
  split; [exact resolveApiKey_spec|]. split; [|split].
  - intros configured context v Hv.
    rewrite resolveApiKey_spec. unfold spec_resolve, bearer_token.
    rewrite Hv. by destruct (startsWith v _).
  - intros args context env K2 Hheader Hne.
    exists (post_request (requestPayload args) K2). split; [|done].
    apply handler_calls_with_key; [|done].
    rewrite resolveApiKey_spec. unfold spec_resolve.
    by rewrite (bearer_token_of_bearer _ _ Hheader).
  - intros args context env K1 K2 Hconfigured Hne Hheader.
    exists (post_request (requestPayload args) K1). split; [|done].
    apply handler_calls_with_key; [|done].
    rewrite resolveApiKey_spec. unfold spec_resolve.
    by rewrite (bearer_token_of_other_scheme _ _ Hheader).
Qed.

Lemma C2_witness :
  (∃ req,
     (handler (VerifyClaimArgs "The Earth is round")
        (context_with {[ "authorization" := Mcp.Multiple [ "Bearer K2" ] ]})
        (answering (Some "K1") ok_empty_choices)).2 = [req]
     ∧ Http.header "Authorization" req = Some "Bearer K2")
  ∧ (∃ req,
       (handler (VerifyClaimArgs "The Earth is round")
          (context_with {[ "Authorization" := Mcp.Single "Token K2" ]})
          (answering (Some "K1") ok_empty_choices)).2 = [req]
       ∧ Http.header "Authorization" req = Some "Bearer K1").
Proof.
  destruct C2_bearer_header_overrides_configured_key as (_ & _ & Hbearer & Hother).
  split.
  - apply (Hbearer (VerifyClaimArgs "The Earth is round")
             (context_with {[ "authorization" := Mcp.Multiple [ "Bearer K2" ] ]})
             (answering (Some "K1") ok_empty_choices) "K2");
      [reflexivity | discriminate].
  - apply (Hother (VerifyClaimArgs "The Earth is round")
             (context_with {[ "Authorization" := Mcp.Single "Token K2" ]})
             (answering (Some "K1") ok_empty_choices) "K1" "K2");
      [reflexivity | discriminate | reflexivity].
Defined.

(** C3: when the configured key is absent or empty and no well-formed bearer
    header yields a non-empty key, both tools issue no upstream request and
    return a protocol-level successful response whose single text block
    contains "REKA_API_KEY must be provided". *)
Theorem C3_missing_credential_is_text_without_upstream_call
    tool arguments context env :
  is_Some (parse_arguments tool arguments) →
  falsy_key (REKA_API_KEY env) = true →
  falsy_key (bearer_token context) = true →
  ∃ t, callTool tool arguments context env =
         (Returned {| Mcp.content :=
                        [ {| Mcp.type := "text"; Mcp.text := Str t |} ] |}, [])
       ∧ includes t "REKA_API_KEY must be provided" = true.
Proof.
  intros [args Hargs] Hconfigured Hbearer.
  exists (error_prefix args +:+ missing_key_message).
  split; [|apply missing_key_message_includes].
  unfold callTool. rewrite Hargs, handler_missing_key; [done|].
  rewrite resolveApiKey_spec. unfold spec_resolve.
  by destruct (bearer_token context).
Qed.

Lemma C3_witness :
  ∃ t, callTool find_similar
         {[ "target" := Str "ChatGPT"; "attribute" := Str "functionality" ]}
         (context_with {[ "Authorization" := Mcp.Single "Token K2" ]})
         (answering None ok_empty_choices) =
         (Returned {| Mcp.content :=
                        [ {| Mcp.type := "text"; Mcp.text := Str t |} ] |}, [])
       ∧ includes t "REKA_API_KEY must be provided" = true.
Proof.
  apply (C3_missing_credential_is_text_without_upstream_call
           find_similar
           {[ "target" := Str "ChatGPT"; "attribute" := Str "functionality" ]}
           (context_with {[ "Authorization" := Mcp.Single "Token K2" ]})
           (answering None ok_empty_choices)).
  - vm_compute. eauto.
  - reflexivity.
  - reflexivity.
Defined.

(** With a non-empty configured key the handlers go upstream, unless the
    request carries a bearer header with nothing after the prefix. *)
Lemma configured_key_goes_upstream args context env K1 :
  REKA_API_KEY env = Some K1 →
  K1 ≠ EmptyString →
  bearer_token context ≠ Some EmptyString →
  ∃ key, key ≠ EmptyString
         ∧ (handler args context env).2 = [post_request (requestPayload args) key].
Proof.
  intros Hconfigured Hne Hbearer.
  pose proof (resolveApiKey_spec (REKA_API_KEY env) context) as Hkey.
  unfold spec_resolve in Hkey.
  destruct (bearer_token context) as [token|].
  - exists token. split; [congruence|].
    by apply handler_calls_with_key; [|congruence].
  - exists K1. split; [done|].
    apply handler_calls_with_key; [|done]. by rewrite Hkey.
Qed.

(** Why the header value matters: were a callback handed the value
    [Bearer ] with its trailing space, the header would overwrite the
    configured key [K1] with the empty string and both tools would answer
    with the missing-credential text.  A value with whitespace at its end is
    not one the route hands over. *)
Lemma empty_bearer_value_at_the_callback :
  resolveApiKey (Some "K1")
    (context_with {[ "Authorization" := Mcp.Single "Bearer " ]})
  = Some EmptyString
  ∧ callTool verify_claim {[ "claim" := Str "The Earth is round" ]}
      (context_with {[ "Authorization" := Mcp.Single "Bearer " ]})
      (answering (Some "K1") ok_empty_choices)
    = (Returned (Mcp.text_result
         (Str "Error verifying claim: REKA_API_KEY must be provided via environment variable 'REKA_API_KEY' or Authorization header")),
       [])
  ∧ callTool find_similar
      {[ "target" := Str "ChatGPT"; "attribute" := Str "functionality" ]}
      (context_with {[ "Authorization" := Mcp.Single "Bearer " ]})
      (answering (Some "K1") ok_empty_choices)
    = (Returned (Mcp.text_result
         (Str "Error finding similar items: REKA_API_KEY must be provided via environment variable 'REKA_API_KEY' or Authorization header")),
       []).
Proof. repeat split; vm_compute; reflexivity. Qed.

Lemma trimmed_bearer_token_is_not_empty context :
  (∀ v, authorization_header context = Some v → http_trimmed v = true) →
  bearer_token context ≠ Some EmptyString.
Proof.
  intros Htrimmed. unfold bearer_token.
  destruct (authorization_header context) as [v|]; [|done].
  destruct (startsWith v "Bearer ") eqn:Hprefix; [|done].
  intros [= Hempty].
  pose proof (startsWith_slice _ _ Hprefix) as Hv.
  change (String.length "Bearer ") with 7 in Hv.
  assert (slice 7 v = EmptyString) as Hslice by exact Hempty.
  rewrite Hslice in Hv.
  specialize (Htrimmed v eq_refl). by rewrite Hv in Htrimmed.
Qed.

(** C4: credential resolution fails only when neither source yields a key.
    For every call whose configured key is not empty, whatever Authorization
    header the request carries (none, a bearer header, any other scheme, an
    array), the dispatcher goes upstream, once, with a key that is not
    empty: the header's token when there is a well-formed bearer header, the
    configured key otherwise.  Header values are those of an HTTP request,
    with no whitespace at their ends. *)
Theorem C4_configured_key_always_goes_upstream
    tool arguments args context env K1 :
  parse_arguments tool arguments = Some args →
  REKA_API_KEY env = Some K1 →
  K1 ≠ EmptyString →
  (∀ v, authorization_header context = Some v → http_trimmed v = true) →
  ∃ key t,
    key ≠ EmptyString
    ∧ resolveApiKey (REKA_API_KEY env) context = Some key
    ∧ (bearer_token context = Some key
       ∨ bearer_token context = None ∧ key = K1)
    ∧ callTool tool arguments context env =
        (Returned {| Mcp.content :=
                       [ {| Mcp.type := "text"; Mcp.text := t |} ] |},
         [post_request (requestPayload args) key])
    ∧ Http.header "Authorization" (post_request (requestPayload args) key)
      = Some ("Bearer " +:+ key).
Proof.
  intros Hargs Hconfigured Hne Htrimmed.
  pose proof (trimmed_bearer_token_is_not_empty _ Htrimmed) as Htoken.
  pose proof (resolveApiKey_spec (REKA_API_KEY env) context) as Hkey.
  unfold spec_resolve in Hkey. rewrite Hconfigured in Hkey.
  destruct (callTool_valid _ _ _ context env Hargs) as (t & Hcall & _).
  destruct (bearer_token context) as [token|] eqn:Hbearer.
  - exists token, t.
    assert (token ≠ EmptyString) as Hnonempty by congruence.
    rewrite Hconfigured, Hcall.
    rewrite (handler_calls_with_key args context env token);
      [by eauto 10 | by rewrite Hconfigured | done].
  - exists K1, t. rewrite Hconfigured, Hcall.
    rewrite (handler_calls_with_key args context env K1);
      [by eauto 10 | by rewrite Hconfigured | done].
Qed.

Lemma C4_witness :
  ∃ key t,
    key ≠ EmptyString
    ∧ resolveApiKey (REKA_API_KEY (answering (Some "K1") ok_empty_choices))
        (context_with {[ "authorization" := Mcp.Single "Bearer" ]})
      = Some key
    ∧ (bearer_token
         (context_with {[ "authorization" := Mcp.Single "Bearer" ]})
       = Some key
       ∨ bearer_token
           (context_with {[ "authorization" := Mcp.Single "Bearer" ]})
         = None
         ∧ key = "K1")
    ∧ callTool verify_claim {[ "claim" := Str "The Earth is round" ]}
        (context_with {[ "authorization" := Mcp.Single "Bearer" ]})
        (answering (Some "K1") ok_empty_choices) =
        (Returned {| Mcp.content :=
                       [ {| Mcp.type := "text"; Mcp.text := t |} ] |},
         [post_request (verify_requestPayload "The Earth is round") key])
    ∧ Http.header "Authorization"
        (post_request (verify_requestPayload "The Earth is round") key)
      = Some ("Bearer " +:+ key).
Proof.
  apply (C4_configured_key_always_goes_upstream
           verify_claim {[ "claim" := Str "The Earth is round" ]}
           (VerifyClaimArgs "The Earth is round")
           (context_with {[ "authorization" := Mcp.Single "Bearer" ]})
           (answering (Some "K1") ok_empty_choices) "K1");
    [reflexivity | reflexivity | discriminate |].
  intros v Hv. vm_compute in Hv. injection Hv as <-. reflexivity.
Defined.

(** The message of the error raised on a status that is not ok. *)
Lemma upstream_client_http_failure args key env response body :
  fetch env (post_request (requestPayload args) key) = Normal response →
  Http.ok response = false →
  Http.text response = Normal body →
  upstream_client args key env =
    (Throw (ErrorInstance ("Reka API error: " +:+ pretty (Http.status response)
                           +:+ " " +:+ Http.statusText response)),
     [post_request (requestPayload args) key]).
Proof.
  intros Hfetch Hok Htext.
  by rewrite upstream_client_unfold, send_and_extract_unfold, Hfetch, Hok, Htext.
Qed.

(** C5, as stated, fails: the error raised on a status that is not ok does
    not carry the response body.  Two 401 responses that differ only in their
    bodies raise the same error and give the same tool response; and when
    the body cannot be read, what is raised is the read failure, whose text
    does not mention the status code. *)
Lemma C5_raised_error_does_not_carry_body :
  Http.text unauthorized_a ≠ Http.text unauthorized_b
  ∧ verifyClaimWithReka "The Earth is round" "K1"
      (answering (Some "K1") unauthorized_a)
    = verifyClaimWithReka "The Earth is round" "K1"
        (answering (Some "K1") unauthorized_b)
  ∧ verifyClaimWithReka "The Earth is round" "K1"
      (answering (Some "K1") unauthorized_a)
    = (Throw (ErrorInstance "Reka API error: 401 Unauthorized"),
       [post_request (verify_requestPayload "The Earth is round") "K1"])
  ∧ callTool verify_claim {[ "claim" := Str "The Earth is round" ]} None
      (answering (Some "K1") unauthorized_broken)
    = (Returned (Mcp.text_result (Str "Error verifying claim: terminated")),
       [post_request (verify_requestPayload "The Earth is round") "K1"])
  ∧ includes "Error verifying claim: terminated" "401" = false.
Proof. repeat split; [discriminate | vm_compute; reflexivity ..]. Qed.

(** C5, amended: when the upstream endpoint answers with a status that is not
    ok and the body is read, the client raises, after that single request, an
    error whose message is "Reka API error: " followed by the status code, a
    space and the status text (the body is not part of it), and the
    dispatcher surfaces it as a protocol-level successful response whose
    single text block contains the status code and the status text. *)
Theorem C5_http_failure_is_text_with_status
    tool arguments args context env key response body :
  parse_arguments tool arguments = Some args →
  resolveApiKey (REKA_API_KEY env) context = Some key →
  key ≠ EmptyString →
  fetch env (post_request (requestPayload args) key) = Normal response →
  Http.ok response = false →
  Http.text response = Normal body →
  ∃ message t,
    message = "Reka API error: " +:+ pretty (Http.status response)
              +:+ " " +:+ Http.statusText response
    ∧ upstream_client args key env =
        (Throw (ErrorInstance message),
         [post_request (requestPayload args) key])
    ∧ callTool tool arguments context env =
        (Returned {| Mcp.content :=
                       [ {| Mcp.type := "text"; Mcp.text := Str t |} ] |},
         [post_request (requestPayload args) key])
    ∧ t = error_prefix args +:+ message
    ∧ includes t (pretty (Http.status response)) = true
    ∧ includes t (Http.statusText response) = true.
Proof.
  intros Hargs Hkey Hne Hfetch Hok Htext.
  pose proof (upstream_client_http_failure _ _ _ _ _ Hfetch Hok Htext) as Hclient.
  eexists _, _. split; [reflexivity|]. split; [exact Hclient|].
  split; [|split; [reflexivity|split]].
  - unfold callTool. rewrite Hargs, (handler_with_key _ _ _ _ Hkey Hne), Hclient.
    reflexivity.
  - rewrite <- append_assoc. apply includes_middle.
  - rewrite <- !append_assoc. apply includes_suffix.
Qed.

Lemma C5_witness :
  ∃ message t,
    message = "Reka API error: " +:+ pretty 401%N +:+ " " +:+ "Unauthorized"
    ∧ upstream_client (VerifyClaimArgs "The Earth is round") "K1"
        (answering (Some "K1") unauthorized_a) =
        (Throw (ErrorInstance message),
         [post_request (verify_requestPayload "The Earth is round") "K1"])
    ∧ callTool verify_claim {[ "claim" := Str "The Earth is round" ]} None
        (answering (Some "K1") unauthorized_a) =
        (Returned {| Mcp.content :=
                       [ {| Mcp.type := "text"; Mcp.text := Str t |} ] |},
         [post_request (verify_requestPayload "The Earth is round") "K1"])
    ∧ t = "Error verifying claim: " +:+ message
    ∧ includes t (pretty 401%N) = true
    ∧ includes t "Unauthorized" = true.
Proof.
  apply (C5_http_failure_is_text_with_status
           verify_claim {[ "claim" := Str "The Earth is round" ]}
           (VerifyClaimArgs "The Earth is round") None
           (answering (Some "K1") unauthorized_a) "K1" unauthorized_a "[]");
    [reflexivity | reflexivity | discriminate | reflexivity ..].
Defined.

(** What the extraction does on the bodies the specification names. *)
Lemma extract_result_empty_choices props :
  props !! "choices" = Some (Array []) →
  extract_result (Object props) = Normal (Str "No response received").
Proof. intros H. unfold extract_result. simpl. by rewrite H. Qed.

Lemma extract_result_absent_content props first rest :
  props !! "choices" = Some (Array (first :: rest)) →
  opt_chain (opt_chain first "message") "content" = Undefined →
  extract_result (Object props) = Normal (Str "No response received").
Proof.
  intros Hchoices Hcontent. unfold extract_result. simpl.
  rewrite Hchoices. simpl. by rewrite Hcontent.
Qed.

Lemma extract_result_content props first rest first_props message_props s :
  props !! "choices" = Some (Array (first :: rest)) →
  first = Object first_props →
  first_props !! "message" = Some (Object message_props) →
  message_props !! "content" = Some (Str s) →
  s ≠ EmptyString →
  extract_result (Object props) = Normal (Str s).
Proof.
  intros Hchoices -> Hmessage Hcontent Hne. unfold extract_result. simpl.
  rewrite Hchoices. simpl. unfold opt_chain. simpl. rewrite Hmessage. simpl.
  rewrite Hcontent. unfold or_else. simpl.
  apply String.eqb_neq in Hne. by rewrite Hne.
Qed.

(** C6, at the input where the code departs from it: a success response
    whose body is the object [{}], which has no choices.  [data.choices] is
    [undefined], reading its element 0 throws a [TypeError], and the tool's
    text is that error instead of "No response received".  With [choices]
    present and empty the placeholder is returned. *)
Theorem C6_body_without_choices_throws :
  extract_result (Object ∅)
  = Throw (ErrorInstance "Cannot read properties of undefined (reading '0')")
  ∧ callTool verify_claim {[ "claim" := Str "The Earth is round" ]} None
      (answering (Some "K1") ok_empty_object)
    = (Returned (Mcp.text_result
         (Str "Error verifying claim: Cannot read properties of undefined (reading '0')")),
       [post_request (verify_requestPayload "The Earth is round") "K1"])
  ∧ callTool verify_claim {[ "claim" := Str "The Earth is round" ]} None
      (answering (Some "K1") ok_empty_choices)
    = (Returned (Mcp.text_result (Str "No response received")),
       [post_request (verify_requestPayload "The Earth is round") "K1"]).
Proof. repeat split; vm_compute; reflexivity. Qed.

Lemma callTool_with_key tool arguments args context env key :
  parse_arguments tool arguments = Some args →
  resolveApiKey (REKA_API_KEY env) context = Some key →
  key ≠ EmptyString →
  callTool tool arguments context env =
    match upstream_client args key env with
    | (Normal v, calls) => (Returned (Mcp.text_result v), calls)
    | (Throw e, calls) =>
        (Returned (Mcp.text_result (Str (error_prefix args +:+ error_text e))),
         calls)
    end.
Proof.
  intros Hargs Hkey Hne. unfold callTool.
  rewrite Hargs, (handler_with_key _ _ _ _ Hkey Hne).
  by destruct (upstream_client args key env) as [[v|e] calls].
Qed.

(** C7: whatever the upstream client returns on success is the text of the
    tool response, unchanged; in particular the content string of the first
    choice of a success body reaches the caller as it is, whether or not it
    is JSON. *)
Theorem C7_success_text_is_passed_through
    tool arguments args context env key :
  parse_arguments tool arguments = Some args →
  resolveApiKey (REKA_API_KEY env) context = Some key →
  key ≠ EmptyString →
  (∀ v calls,
     upstream_client args key env = (Normal v, calls) →
     callTool tool arguments context env =
       (Returned {| Mcp.content := [ {| Mcp.type := "text"; Mcp.text := v |} ] |},
        calls))
  ∧ (∀ response props first_props rest message_props s,
       fetch env (post_request (requestPayload args) key) = Normal response →
       Http.ok response = true →
       Http.json response = Normal (Object props) →
       props !! "choices" = Some (Array (Object first_props :: rest)) →
       first_props !! "message" = Some (Object message_props) →
       message_props !! "content" = Some (Str s) →
       s ≠ EmptyString →
       callTool tool arguments context env =
         (Returned {| Mcp.content :=
                        [ {| Mcp.type := "text"; Mcp.text := Str s |} ] |},
          [post_request (requestPayload args) key])).
Proof.
  intros Hargs Hkey Hne. split.
  - intros v calls Hclient.
    by rewrite (callTool_with_key _ _ _ _ _ _ Hargs Hkey Hne), Hclient.
  - intros response props first_props rest message_props s
      Hfetch Hok Hjson Hchoices Hmessage Hcontent Hs.
    rewrite (callTool_with_key _ _ _ _ _ _ Hargs Hkey Hne).
    rewrite upstream_client_unfold, send_and_extract_unfold, Hfetch, Hok, Hjson.
    by rewrite (extract_result_content _ _ _ _ _ _
                  Hchoices eq_refl Hmessage Hcontent Hs).
Qed.

Lemma C7_witness :
  callTool verify_claim {[ "claim" := Str "The Earth is round" ]} None
    (answering (Some "K1") (ok_with_content "verdict: {true"))
  = (Returned {| Mcp.content :=
                   [ {| Mcp.type := "text";
                        Mcp.text := Str "verdict: {true" |} ] |},
     [post_request (verify_requestPayload "The Earth is round") "K1"]).
Proof.
  destruct (C7_success_text_is_passed_through
              verify_claim {[ "claim" := Str "The Earth is round" ]}
              (VerifyClaimArgs "The Earth is round") None
              (answering (Some "K1") (ok_with_content "verdict: {true"))
              "K1") as [Hreturned _];
    [reflexivity | reflexivity | discriminate |].
  apply Hreturned. vm_compute. reflexivity.
Defined.

(** C8: for every claim string, the single request [verify_claim] sends has
    the model fixed to "reka-flash-research" and exactly one message, of role
    "user", whose content is the fixed framing sentence followed by the claim
    text; the framing asks for a JSON object with 'verdict'
    (true/false/uncertain), 'confidence' (0-1) and 'reasoning', and the
    content contains the claim as a literal substring. *)
Theorem C8_verify_claim_prompt claim context env key :
  resolveApiKey (REKA_API_KEY env) context = Some key →
  key ≠ EmptyString →
  ∃ req m,
    (verify_claim_handler claim context env).2 = [req]
    ∧ (verifyClaimWithReka claim key env).2 = [req]
    ∧ Http.model (Http.body req) = "reka-flash-research"
    ∧ Http.messages (Http.body req) = [m]
    ∧ Http.role m = "user"
    ∧ Http.content m = verify_framing +:+ claim
    ∧ includes (Http.content m) claim = true
    ∧ includes verify_framing "Return your response as a JSON object" = true
    ∧ includes verify_framing "'verdict' (true/false/uncertain)" = true
    ∧ includes verify_framing "'confidence' (0-1)" = true
    ∧ includes verify_framing "'reasoning'" = true.
Proof.
  intros Hkey Hne.
  exists (post_request (verify_requestPayload claim) key),
    {| Http.role := "user"; Http.content := verify_framing +:+ claim |}.
  split.
  { exact (handler_calls_with_key (VerifyClaimArgs claim) _ _ _ Hkey Hne). }
  split.
  { exact (upstream_client_calls (VerifyClaimArgs claim) key env). }
  repeat split; try reflexivity.
  apply includes_suffix.
Qed.

Lemma C8_witness :
  ∃ req m,
    (verify_claim_handler "The Earth is round" None
       (answering (Some "K1") ok_empty_choices)).2 = [req]
    ∧ (verifyClaimWithReka "The Earth is round" "K1"
         (answering (Some "K1") ok_empty_choices)).2 = [req]
    ∧ Http.model (Http.body req) = "reka-flash-research"
    ∧ Http.messages (Http.body req) = [m]
    ∧ Http.role m = "user"
    ∧ Http.content m = verify_framing +:+ "The Earth is round"
    ∧ includes (Http.content m) "The Earth is round" = true
    ∧ includes verify_framing "Return your response as a JSON object" = true
    ∧ includes verify_framing "'verdict' (true/false/uncertain)" = true
    ∧ includes verify_framing "'confidence' (0-1)" = true
    ∧ includes verify_framing "'reasoning'" = true.
Proof.
  apply (C8_verify_claim_prompt "The Earth is round" None
           (answering (Some "K1") ok_empty_choices) "K1");
    [reflexivity | discriminate].
Defined.

(** C9: for every target and attribute, the single request [find_similar]
    sends carries a prompt that contains the target and the attribute as
    literal substrings (so for "ChatGPT" and "functionality" it contains
    both), and the handler returns one text block holding whatever the
    upstream client returns. *)
Theorem C9_find_similar_prompt target attribute context env key :
  resolveApiKey (REKA_API_KEY env) context = Some key →
  key ≠ EmptyString →
  ∃ req m,
    (find_similar_handler target attribute context env).2 = [req]
    ∧ (findSimilarWithReka target attribute key env).2 = [req]
    ∧ Http.model (Http.body req) = "reka-flash-research"
    ∧ Http.messages (Http.body req) = [m]
    ∧ Http.role m = "user"
    ∧ includes (Http.content m) target = true
    ∧ includes (Http.content m) attribute = true
    ∧ (∀ v calls,
         findSimilarWithReka target attribute key env = (Normal v, calls) →
         find_similar_handler target attribute context env =
           (Normal {| Mcp.content :=
                        [ {| Mcp.type := "text"; Mcp.text := v |} ] |}, calls)).
Proof.
  intros Hkey Hne.
  exists (post_request (similar_requestPayload target attribute) key),
    {| Http.role := "user";
       Http.content := similar_content target attribute |}.
  split.
  { exact (handler_calls_with_key (FindSimilarArgs target attribute)
             _ _ _ Hkey Hne). }
  split.
  { exact (upstream_client_calls (FindSimilarArgs target attribute) key env). }
  repeat split.
  - unfold similar_content. simpl Http.content.
    rewrite <- 3!append_assoc. apply includes_middle.
  - unfold similar_content. simpl Http.content.
    rewrite <- 6!append_assoc. apply includes_middle.
  - intros v calls Hclient.
    pose proof (handler_with_key (FindSimilarArgs target attribute)
                  _ _ _ Hkey Hne) as Hhandler.
    simpl in Hhandler. by rewrite Hclient in Hhandler.
Qed.

Lemma C9_witness :
  ∃ req m,
    (find_similar_handler "ChatGPT" "functionality" None
       (answering (Some "K1") (ok_with_content "Claude, Gemini"))).2 = [req]
    ∧ (findSimilarWithReka "ChatGPT" "functionality" "K1"
         (answering (Some "K1") (ok_with_content "Claude, Gemini"))).2 = [req]
    ∧ Http.model (Http.body req) = "reka-flash-research"
    ∧ Http.messages (Http.body req) = [m]
    ∧ Http.role m = "user"
    ∧ includes (Http.content m) "ChatGPT" = true
    ∧ includes (Http.content m) "functionality" = true
    ∧ (∀ v calls,
         findSimilarWithReka "ChatGPT" "functionality" "K1"
           (answering (Some "K1") (ok_with_content "Claude, Gemini"))
         = (Normal v, calls) →
         find_similar_handler "ChatGPT" "functionality" None
           (answering (Some "K1") (ok_with_content "Claude, Gemini")) =
           (Normal {| Mcp.content :=
                        [ {| Mcp.type := "text"; Mcp.text := v |} ] |}, calls)).
Proof.
  apply (C9_find_similar_prompt "ChatGPT" "functionality" None
           (answering (Some "K1") (ok_with_content "Claude, Gemini")) "K1");
    [reflexivity | discriminate].
Defined.

(** C10: validation asks only that the arguments be strings.  Any string
    under [claim] (under [target] and [attribute]) passes, the empty string
    included; and a call with empty strings, given a resolvable key, is not
    rejected but answered with a text block after one upstream request. *)
Theorem C10_empty_strings_pass_validation :
  (∀ (arguments : gmap string Value) s,
     arguments !! "claim" = Some (Str s) →
     parse_arguments verify_claim arguments = Some (VerifyClaimArgs s))
  ∧ (∀ (arguments : gmap string Value) t a,
       arguments !! "target" = Some (Str t) →
       arguments !! "attribute" = Some (Str a) →
       parse_arguments find_similar arguments = Some (FindSimilarArgs t a))
  ∧ (∀ context env key,
       resolveApiKey (REKA_API_KEY env) context = Some key →
       key ≠ EmptyString →
       ∃ t, callTool verify_claim {[ "claim" := Str EmptyString ]} context env
            = (Returned (Mcp.text_result t),
               [post_request (verify_requestPayload EmptyString) key]))
  ∧ (∀ context env key,
       resolveApiKey (REKA_API_KEY env) context = Some key →
       key ≠ EmptyString →
       ∃ t, callTool find_similar
              {[ "target" := Str EmptyString; "attribute" := Str EmptyString ]}
              context env
            = (Returned (Mcp.text_result t),
               [post_request
                  (similar_requestPayload EmptyString EmptyString) key])).
Proof.
  split; [|split; [|split]].
  - intros arguments s H. simpl. by rewrite H.
  - intros arguments t a Ht Ha. simpl. by rewrite Ht, Ha.
  - intros context env key Hkey Hne.
    destruct (callTool_valid verify_claim {[ "claim" := Str EmptyString ]}
                (VerifyClaimArgs EmptyString) context env)
      as (t & Hcall & _); [reflexivity|].
    exists t. rewrite Hcall.
    by rewrite (handler_calls_with_key _ _ _ _ Hkey Hne).
  - intros context env key Hkey Hne.
    destruct (callTool_valid find_similar
                {[ "target" := Str EmptyString; "attribute" := Str EmptyString ]}
                (FindSimilarArgs EmptyString EmptyString) context env)
      as (t & Hcall & _); [reflexivity|].
    exists t. rewrite Hcall.
    by rewrite (handler_calls_with_key _ _ _ _ Hkey Hne).
Qed.

Lemma C10_witness :
  parse_arguments verify_claim {[ "claim" := Str EmptyString ]}
  = Some (VerifyClaimArgs EmptyString)
  ∧ ∃ t, callTool verify_claim {[ "claim" := Str EmptyString ]} None
           (answering (Some "K1") ok_empty_choices)
         = (Returned (Mcp.text_result t),
            [post_request (verify_requestPayload EmptyString) "K1"]).
Proof.
  destruct C10_empty_strings_pass_validation as (Hclaim & _ & Hcall & _).
  split.
  - apply Hclaim. reflexivity.
  - apply Hcall; [reflexivity | discriminate].
Defined.

(** Neither handler retries: a call issues at most one upstream request. *)
Lemma handler_at_most_one_request args context env :
  length (handler args context env).2 ≤ 1.
Proof.
  rewrite handler_unfold, with_api_key_unfold.
  destruct (resolveApiKey _ _) as [k|]; simpl; [|lia].
  destruct (String.eqb k _); simpl; [lia|].
  pose proof (upstream_client_calls args k env) as Hcalls.
  destruct (upstream_client args k env) as [[v|e] calls];
    simpl in *; subst calls; simpl; lia.
Qed.

(** * Further properties of the code *)

(** ** Credential resolution *)

Lemma resolveApiKey_context_with configured (headers : gmap string Mcp.HeaderValue) :
  resolveApiKey configured (context_with headers) =
    match nullish_or (headers !! "Authorization") (headers !! "authorization") with
    | Some raw =>
        match first_value raw with
        | Some v => if startsWith v "Bearer " then Some (slice 7 v) else configured
        | None => configured
        end
    | None => configured
    end.
Proof.
  rewrite resolveApiKey_spec.
  unfold spec_resolve, bearer_token, authorization_header. simpl.
  destruct (nullish_or _ _) as [raw|]; [|done].
  destruct (first_value raw) as [v|]; [|done].
  by destruct (startsWith v _).
Qed.

(** The handler's upstream requests: none, or the single request authorised
    with the resolved key, which is then not empty. *)
Lemma handler_calls_cases args context env :
  (handler args context env).2 = []
  ∨ ∃ key, resolveApiKey (REKA_API_KEY env) context = Some key
           ∧ key ≠ EmptyString
           ∧ (handler args context env).2
             = [post_request (requestPayload args) key].
Proof.
  destruct (resolveApiKey (REKA_API_KEY env) context) as [key|] eqn:Hkey.
  - destruct (String.eqb_spec key EmptyString) as [->|Hne].
    + left. by rewrite handler_missing_key; [|rewrite Hkey].
    + right. exists key. by rewrite (handler_calls_with_key _ _ _ _ Hkey Hne).
  - left. by rewrite handler_missing_key; [|rewrite Hkey].
Qed.

(** Header-name casing: a header found under ['authorization'] (with nothing
    under ['Authorization']) resolves exactly like the same value under
    ['Authorization']. *)
Theorem lowercase_header_resolves_like_capitalised
    configured (h1 h2 : gmap string Mcp.HeaderValue) raw :
  h1 !! "Authorization" = None →
  h1 !! "authorization" = Some raw →
  h2 !! "Authorization" = Some raw →
  resolveApiKey configured (context_with h1)
  = resolveApiKey configured (context_with h2).
Proof.
  intros Hnone Hlower Hupper.
  by rewrite !resolveApiKey_context_with, Hnone, Hlower, Hupper.
Qed.

Lemma lowercase_header_witness :
  resolveApiKey (Some "K1")
    (context_with {[ "authorization" := Mcp.Single "Bearer K2" ]})
  = resolveApiKey (Some "K1")
      (context_with {[ "Authorization" := Mcp.Single "Bearer K2" ]}).
Proof.
  apply (lowercase_header_resolves_like_capitalised (Some "K1")
           {[ "authorization" := Mcp.Single "Bearer K2" ]}
           {[ "Authorization" := Mcp.Single "Bearer K2" ]}
           (Mcp.Single "Bearer K2")); reflexivity.
Defined.

(** When both casings are present the entry under ['Authorization'] is the
    header and the one under ['authorization'] is never looked at, even when
    the first is empty or malformed and the second is a well-formed bearer
    header. *)
Theorem capitalised_header_masks_lowercase
    configured (h : gmap string Mcp.HeaderValue) raw other :
  h !! "Authorization" = Some raw →
  resolveApiKey configured (context_with (<["authorization" := other]> h))
  = resolveApiKey configured (context_with h)
  ∧ resolveApiKey configured (context_with (delete "authorization" h))
    = resolveApiKey configured (context_with h).
Proof.
  intros Hupper. rewrite !resolveApiKey_context_with.
  rewrite lookup_insert_ne, lookup_delete_ne, Hupper; done.
Qed.

Lemma capitalised_header_masks_witness :
  resolveApiKey (Some "K1")
    (context_with (<["authorization" := Mcp.Single "Bearer K2"]>
                     {[ "Authorization" := Mcp.Single EmptyString ]}))
  = Some "K1".
Proof.
  destruct (capitalised_header_masks_lowercase (Some "K1")
              {[ "Authorization" := Mcp.Single EmptyString ]}
              (Mcp.Single EmptyString) (Mcp.Single "Bearer K2"))
    as [Hmasked _]; [vm_compute; reflexivity|].
  rewrite Hmasked. vm_compute. reflexivity.
Defined.

(** Array-valued headers: only the first element counts, and an empty array
    leaves the configured key in effect. *)
Theorem array_header_uses_first_element
    configured (h : gmap string Mcp.HeaderValue) vs :
  h !! "Authorization" = Some (Mcp.Multiple vs) →
  resolveApiKey configured (context_with h) =
    match vs with
    | v :: _ =>
        resolveApiKey configured
          (context_with {[ "Authorization" := Mcp.Single v ]})
    | [] => configured
    end.
Proof.
  intros Hupper. rewrite resolveApiKey_context_with, Hupper. simpl.
  destruct vs as [|v rest]; [done|].
  by rewrite resolveApiKey_context_with.
Qed.

Lemma array_header_witness :
  resolveApiKey (Some "K1")
    (context_with {[ "Authorization" :=
                       Mcp.Multiple [ "Bearer K2"; "Bearer K3" ] ]})
  = resolveApiKey (Some "K1")
      (context_with {[ "Authorization" := Mcp.Single "Bearer K2" ]}).
Proof.
  apply (array_header_uses_first_element (Some "K1")
           {[ "Authorization" := Mcp.Multiple [ "Bearer K2"; "Bearer K3" ] ]}
           [ "Bearer K2"; "Bearer K3" ]).
  reflexivity.
Defined.

(** Provenance of the key: whatever resolution yields is the configured key
    or the text after ['Bearer '] of the request's Authorization header;
    nothing else can become the key, and nothing is trimmed off it. *)
Theorem resolved_key_provenance configured context key :
  resolveApiKey configured context = Some key →
  configured = Some key
  ∨ authorization_header context = Some ("Bearer " +:+ key).
Proof.
  rewrite resolveApiKey_spec. unfold spec_resolve, bearer_token.
  destruct (authorization_header context) as [v|]; [|by left].
  destruct (startsWith v "Bearer ") eqn:Hprefix; [|by left].
  intros [= <-]. right. f_equal. exact (startsWith_slice _ _ Hprefix).
Qed.

Lemma resolved_key_provenance_witness :
  Some "K1" = Some " K2 "
  ∨ authorization_header
      (context_with {[ "authorization" := Mcp.Single "Bearer  K2 " ]})
    = Some ("Bearer " +:+ " K2 ").
Proof.
  apply (resolved_key_provenance (Some "K1")
           (context_with {[ "authorization" := Mcp.Single "Bearer  K2 " ]})
           " K2 ").
  reflexivity.
Defined.

Lemma upstream_client_fetch_only args key env1 env2 :
  fetch env1 = fetch env2 →
  upstream_client args key env1 = upstream_client args key env2.
Proof.
  intros Hfetch.
  by rewrite !upstream_client_unfold, !send_and_extract_unfold, Hfetch.
Qed.

Lemma handler_same_key args context env1 env2 :
  fetch env1 = fetch env2 →
  resolveApiKey (REKA_API_KEY env1) context
  = resolveApiKey (REKA_API_KEY env2) context →
  handler args context env1 = handler args context env2.
Proof.
  intros Hfetch Hkey.
  rewrite !handler_unfold, !with_api_key_unfold, Hkey. clear Hkey.
  destruct (resolveApiKey (REKA_API_KEY env2) context) as [k|]; [|done].
  destruct (String.eqb k _); [done|].
  by rewrite (upstream_client_fetch_only _ _ _ _ Hfetch).
Qed.

(** A bearer header overrides the configured key completely: with one in the
    request, two servers that differ only in [REKA_API_KEY] answer alike,
    whether the key is set, unset or wrong. *)
Theorem bearer_header_hides_configured_key args context env1 env2 token :
  bearer_token context = Some token →
  fetch env1 = fetch env2 →
  handler args context env1 = handler args context env2.
Proof.
  intros Htoken Hfetch. apply handler_same_key; [done|].
  rewrite !resolveApiKey_spec. unfold spec_resolve. by rewrite Htoken.
Qed.

Lemma bearer_header_hides_witness :
  handler (VerifyClaimArgs "The Earth is round")
    (context_with {[ "Authorization" := Mcp.Single "Bearer K2" ]})
    (answering (Some "K1") ok_empty_choices)
  = handler (VerifyClaimArgs "The Earth is round")
      (context_with {[ "Authorization" := Mcp.Single "Bearer K2" ]})
      (answering None ok_empty_choices).
Proof.
  apply (bearer_header_hides_configured_key
           (VerifyClaimArgs "The Earth is round")
           (context_with {[ "Authorization" := Mcp.Single "Bearer K2" ]})
           (answering (Some "K1") ok_empty_choices)
           (answering None ok_empty_choices) "K2");
    reflexivity.
Defined.

(** [REKA_API_KEY] set to the empty string is the same as not set at all. *)
Theorem empty_configured_key_is_unset args context network :
  handler args context {| REKA_API_KEY := Some EmptyString; fetch := network |}
  = handler args context {| REKA_API_KEY := None; fetch := network |}.
Proof.
  rewrite !handler_unfold, !with_api_key_unfold, !resolveApiKey_spec.
  unfold spec_resolve. simpl.
  destruct (bearer_token context) as [token|]; [|done].
  destruct (String.eqb token _); [done|].
  by rewrite (upstream_client_fetch_only args token
                {| REKA_API_KEY := Some EmptyString; fetch := network |}
                {| REKA_API_KEY := None; fetch := network |} eq_refl).
Qed.

(** ** What goes upstream *)

(** Every request a handler issues is a POST to the one completion endpoint,
    declares a JSON body, carries the tool's payload and is authorised with
    a bearer key that is not empty; and there is at most one per call. *)
Theorem upstream_requests_are_well_formed args context env req :
  req ∈ (handler args context env).2 →
  (handler args context env).2 = [req]
  ∧ Http.url req = "https://api.reka.ai/v1/chat/completions"
  ∧ Http.method req = "POST"
  ∧ Http.header "Content-Type" req = Some "application/json"
  ∧ Http.body req = requestPayload args
  ∧ Http.model (Http.body req) = "reka-flash-research"
  ∧ ∃ key, key ≠ EmptyString
           ∧ resolveApiKey (REKA_API_KEY env) context = Some key
           ∧ Http.header "Authorization" req = Some ("Bearer " +:+ key).
Proof.
  intros Hin.
  destruct (handler_calls_cases args context env)
    as [Hnone|(key & Hkey & Hne & Hcalls)].
  - rewrite Hnone in Hin. by apply elem_of_nil in Hin.
  - rewrite Hcalls in Hin |- *. apply list_elem_of_singleton in Hin as ->.
    repeat split; try reflexivity.
    + by destruct args.
    + by exists key.
Qed.

Lemma upstream_requests_witness :
  (handler (VerifyClaimArgs "The Earth is round") None
     (answering (Some "K1") unauthorized_a)).2
  = [post_request (verify_requestPayload "The Earth is round") "K1"]
  ∧ Http.url (post_request (verify_requestPayload "The Earth is round") "K1")
    = "https://api.reka.ai/v1/chat/completions".
Proof.
  destruct (upstream_requests_are_well_formed
              (VerifyClaimArgs "The Earth is round") None
              (answering (Some "K1") unauthorized_a)
              (post_request (verify_requestPayload "The Earth is round") "K1"))
    as (Hcalls & Hurl & _).
  - vm_compute. apply list_elem_of_here.
  - split; [exact Hcalls | exact Hurl].
Defined.

(** ** Failures after the key is resolved *)

(** Transport failure: when [fetch] itself rejects, the tool answers with its
    error prefix followed by the rejection's message, or by "Unknown error"
    when what was thrown is not an [Error]; one request was attempted. *)
Theorem transport_failure_is_reported_as_text
    tool arguments args context env key error :
  parse_arguments tool arguments = Some args →
  resolveApiKey (REKA_API_KEY env) context = Some key →
  key ≠ EmptyString →
  fetch env (post_request (requestPayload args) key) = Throw error →
  callTool tool arguments context env =
    (Returned (Mcp.text_result
       (Str (error_prefix args
             +:+ match error with
                 | ErrorInstance message => message
                 | NotAnError => "Unknown error"
                 end))),
     [post_request (requestPayload args) key]).
Proof.
  intros Hargs Hkey Hne Hfetch.
  rewrite (callTool_with_key _ _ _ _ _ _ Hargs Hkey Hne).
  rewrite upstream_client_unfold, send_and_extract_unfold, Hfetch.
  by destruct error.
Qed.

Lemma transport_failure_witness :
  callTool find_similar
    {[ "target" := Str "ChatGPT"; "attribute" := Str "functionality" ]} None
    (failing (Some "K1") NotAnError)
  = (Returned (Mcp.text_result
       (Str ("Error finding similar items: " +:+ "Unknown error"))),
     [post_request (similar_requestPayload "ChatGPT" "functionality") "K1"]).
Proof.
  apply (transport_failure_is_reported_as_text find_similar
           {[ "target" := Str "ChatGPT"; "attribute" := Str "functionality" ]}
           (FindSimilarArgs "ChatGPT" "functionality") None
           (failing (Some "K1") NotAnError) "K1" NotAnError);
    [reflexivity | reflexivity | discriminate | reflexivity].
Defined.

(** A success status does not protect against a bad body: when
    [response.json()] rejects, the tool answers with its error prefix followed
    by the parser's message. *)
Theorem unparsable_success_body_is_reported_as_text
    tool arguments args context env key response error :
  parse_arguments tool arguments = Some args →
  resolveApiKey (REKA_API_KEY env) context = Some key →
  key ≠ EmptyString →
  fetch env (post_request (requestPayload args) key) = Normal response →
  Http.ok response = true →
  Http.json response = Throw error →
  callTool tool arguments context env =
    (Returned (Mcp.text_result
       (Str (error_prefix args +:+ error_text error))),
     [post_request (requestPayload args) key]).
Proof.
  intros Hargs Hkey Hne Hfetch Hok Hjson.
  rewrite (callTool_with_key _ _ _ _ _ _ Hargs Hkey Hne).
  by rewrite upstream_client_unfold, send_and_extract_unfold, Hfetch, Hok, Hjson.
Qed.

Lemma unparsable_success_body_witness :
  callTool verify_claim {[ "claim" := Str "The Earth is round" ]} None
    (answering (Some "K1") ok_not_json)
  = (Returned (Mcp.text_result
       (Str ("Error verifying claim: "
             +:+ error_text (ErrorInstance "Unexpected token < in JSON at position 0")))),
     [post_request (verify_requestPayload "The Earth is round") "K1"]).
Proof.
  apply (unparsable_success_body_is_reported_as_text verify_claim
           {[ "claim" := Str "The Earth is round" ]}
           (VerifyClaimArgs "The Earth is round") None
           (answering (Some "K1") ok_not_json) "K1" ok_not_json
           (ErrorInstance "Unexpected token < in JSON at position 0"));
    [reflexivity | reflexivity | discriminate | reflexivity ..].
Defined.

(** ** Result extraction *)

Lemma extract_result_truthy data v :
  extract_result data = Normal v → truthy v = true.
Proof.
  unfold extract_result.
  destruct (get_prop data "choices") as [choices|]; [|done].
  destruct (get_index choices 0) as [first|]; [|done].
  intros [= <-]. unfold or_else.
  by destruct (truthy (opt_chain _ _)) eqn:Htruthy.
Qed.

Lemma upstream_client_truthy args key env v calls :
  upstream_client args key env = (Normal v, calls) → truthy v = true.
Proof.
  rewrite upstream_client_unfold, send_and_extract_unfold.
  destruct (fetch env _) as [response|]; [|done].
  destruct (Http.ok response).
  - destruct (Http.json response) as [data|]; [|done].
    intros [= Hresult _]. by apply extract_result_truthy in Hresult.
  - by destruct (Http.text response).
Qed.

Lemma error_prefix_truthy args message :
  truthy (Str (error_prefix args +:+ message)) = true.
Proof. by destruct args. Qed.

(** The text of a tool response is never empty, nor any other falsy value:
    it is an error message behind its prefix, a truthy content taken from the
    upstream answer, or the placeholder. *)
Theorem tool_text_is_never_empty args context env :
  ∃ t calls,
    handler args context env = (Normal (Mcp.text_result t), calls)
    ∧ truthy t = true
    ∧ t ≠ Str EmptyString.
Proof.
  assert (∃ t calls,
            handler args context env = (Normal (Mcp.text_result t), calls)
            ∧ truthy t = true) as (t & calls & Hcall & Htruthy).
  { rewrite handler_unfold, with_api_key_unfold.
    destruct (resolveApiKey _ _) as [k|];
      [|by eauto using error_prefix_truthy].
    destruct (String.eqb k _); [by eauto using error_prefix_truthy|].
    destruct (upstream_client args k env) as [[v|e] calls] eqn:Hclient;
      [|by eauto using error_prefix_truthy].
    exists v, calls. split; [done|].
    by apply upstream_client_truthy in Hclient. }
  exists t, calls. repeat split; [done..|].
  intros ->. done.
Qed.

(** The extraction completes normally exactly on a body that is an object
    whose [choices] is present and not [null]; on every other body (no
    [choices], [choices: null], a body that is [null], an array, a string, a
    number or a boolean) it throws. *)
Theorem extract_result_returns_iff data :
  (∃ v, extract_result data = Normal v)
  ↔ ∃ props choices,
      data = Object props
      ∧ props !! "choices" = Some choices
      ∧ is_nullish choices = false.
Proof.
  split.
  - intros [v Hv]. unfold extract_result in Hv.
    destruct data as [| | | | | |props]; try done.
    simpl in Hv. destruct (props !! "choices") as [choices|] eqn:Hchoices;
      [|done].
    exists props, choices. repeat split; [done|].
    by destruct choices.
  - intros (props & choices & -> & Hchoices & Hnullish).
    unfold extract_result. simpl. rewrite Hchoices. simpl.
    destruct choices; try done; by eauto.
Qed.

(** The content rule: with a first choice that carries a message with a
    content field, the result is that content when it is truthy, of whatever
    type, and the placeholder when it is falsy (the empty string, [0],
    [false], [null]). *)
Theorem first_content_or_placeholder
    (props first_props message_props : gmap string Value) rest content :
  props !! "choices" = Some (Array (Object first_props :: rest)) →
  first_props !! "message" = Some (Object message_props) →
  message_props !! "content" = Some content →
  extract_result (Object props) =
    Normal (if truthy content then content else Str "No response received").
Proof.
  intros Hchoices Hmessage Hcontent. unfold extract_result. simpl.
  rewrite Hchoices. simpl. unfold opt_chain. simpl. rewrite Hmessage. simpl.
  by rewrite Hcontent.
Qed.

Lemma first_content_witness :
  extract_result
    (Object {[ "choices" :=
       Array [ Object {[ "message" :=
         Object {[ "content" := Number 42%float ]} ]} ] ]})
  = Normal (if truthy (Number 42%float) then Number 42%float
            else Str "No response received").
Proof.
  apply (first_content_or_placeholder
           {[ "choices" :=
              Array [ Object {[ "message" :=
                Object {[ "content" := Number 42%float ]} ]} ] ]}
           {[ "message" := Object {[ "content" := Number 42%float ]} ]}
           {[ "content" := Number 42%float ]} [] (Number 42%float));
    vm_compute; reflexivity.
Defined.

(** Only [choices[0]] is read: the other choices and every other field of
    the body have no influence on the result. *)
Theorem only_first_choice_counts
    (props props' : gmap string Value) first rest rest' :
  props !! "choices" = Some (Array (first :: rest)) →
  props' !! "choices" = Some (Array (first :: rest')) →
  extract_result (Object props) = extract_result (Object props').
Proof.
  intros H H'. unfold extract_result. simpl. by rewrite H, H'.
Qed.

Lemma only_first_choice_witness :
  extract_result
    (Object {[ "choices" := Array [ Str "a"; Str "b" ]; "id" := Str "x" ]})
  = extract_result (Object {[ "choices" := Array [ Str "a" ] ]}).
Proof.
  apply (only_first_choice_counts
           {[ "choices" := Array [ Str "a"; Str "b" ]; "id" := Str "x" ]}
           {[ "choices" := Array [ Str "a" ] ]}
           (Str "a") [ Str "b" ] []);
    vm_compute; reflexivity.
Defined.

(** A first choice that is not an object (absent, [null], a string, a
    number, an array) gives the placeholder, and so does a [choices] that is
    itself a string, a number or a boolean. *)
Theorem unusable_first_choice_gives_placeholder
    (props : gmap string Value) choices first :
  props !! "choices" = Some choices →
  get_index choices 0 = Normal first →
  (∀ first_props, first ≠ Object first_props) →
  extract_result (Object props) = Normal (Str "No response received").
Proof.
  intros Hchoices Hfirst Hshape. unfold extract_result. simpl.
  rewrite Hchoices. simpl. rewrite Hfirst.
  destruct first as [| | | | | |first_props]; try done.
  by destruct (Hshape first_props).
Qed.

Lemma unusable_first_choice_witness :
  extract_result (Object {[ "choices" := Str "none" ]})
  = Normal (Str "No response received").
Proof.
  apply (unusable_first_choice_gives_placeholder
           {[ "choices" := Str "none" ]} (Str "none") (Str "n"));
    [vm_compute; reflexivity | vm_compute; reflexivity | discriminate].
Defined.

(** Errors are not marked in the response: for every failure of the upstream
    client there is a successful upstream answer (one whose content is the
    error text) to which the tool gives exactly the same response. *)
Theorem failure_and_success_can_answer_alike
    tool arguments args context env1 env2 key error calls response
    (props first_props message_props : gmap string Value) rest :
  parse_arguments tool arguments = Some args →
  resolveApiKey (REKA_API_KEY env1) context = Some key →
  resolveApiKey (REKA_API_KEY env2) context = Some key →
  key ≠ EmptyString →
  upstream_client args key env1 = (Throw error, calls) →
  fetch env2 (post_request (requestPayload args) key) = Normal response →
  Http.ok response = true →
  Http.json response = Normal (Object props) →
  props !! "choices" = Some (Array (Object first_props :: rest)) →
  first_props !! "message" = Some (Object message_props) →
  message_props !! "content"
    = Some (Str (error_prefix args +:+ error_text error)) →
  callTool tool arguments context env2 = callTool tool arguments context env1.
Proof.
  intros Hargs Hkey1 Hkey2 Hne Hfail Hfetch Hok Hjson Hchoices Hmessage Hcontent.
  pose proof (upstream_client_calls args key env1) as Hcalls.
  rewrite Hfail in Hcalls. simpl in Hcalls. subst calls.
  rewrite (callTool_with_key _ _ _ _ _ _ Hargs Hkey1 Hne), Hfail.
  rewrite (callTool_with_key _ _ _ _ _ _ Hargs Hkey2 Hne).
  rewrite upstream_client_unfold, send_and_extract_unfold, Hfetch, Hok, Hjson.
  unfold extract_result. simpl. rewrite Hchoices. simpl.
  unfold opt_chain. simpl. rewrite Hmessage. simpl. rewrite Hcontent.
  unfold or_else. by destruct args.
Qed.

Lemma failure_and_success_witness :
  callTool verify_claim {[ "claim" := Str "The Earth is round" ]} None
    (answering (Some "K1")
       (ok_with_content "Error verifying claim: Reka API error: 401 Unauthorized"))
  = callTool verify_claim {[ "claim" := Str "The Earth is round" ]} None
      (answering (Some "K1") unauthorized_a).
Proof.
  apply (failure_and_success_can_answer_alike verify_claim
           {[ "claim" := Str "The Earth is round" ]}
           (VerifyClaimArgs "The Earth is round") None
           (answering (Some "K1") unauthorized_a)
           (answering (Some "K1")
              (ok_with_content
                 "Error verifying claim: Reka API error: 401 Unauthorized"))
           "K1" (ErrorInstance "Reka API error: 401 Unauthorized")
           [post_request (verify_requestPayload "The Earth is round") "K1"]
           (ok_with_content
              "Error verifying claim: Reka API error: 401 Unauthorized")
           {[ "choices" :=
              Array [ Object {[ "message" :=
                Object {[ "content" :=
                  Str "Error verifying claim: Reka API error: 401 Unauthorized" ]} ]} ] ]}
           {[ "message" :=
              Object {[ "content" :=
                Str "Error verifying claim: Reka API error: 401 Unauthorized" ]} ]}
           {[ "content" :=
              Str "Error verifying claim: Reka API error: 401 Unauthorized" ]}
           []);
    first [discriminate | vm_compute; reflexivity].
Defined.

(** ** Prompts *)

(** The request of [verify_claim] determines the claim and the key: two
    calls with different claims, or with different keys, never send the same
    request. *)
Theorem verify_request_determines_claim_and_key claim1 key1 claim2 key2 :
  post_request (verify_requestPayload claim1) key1
  = post_request (verify_requestPayload claim2) key2 →
  claim1 = claim2 ∧ key1 = key2.
Proof.
  intros [= Hkey Hclaim].
  split; by eapply String.app_inj.
Qed.

Lemma verify_request_witness :
  "The Earth is round" = "The Earth is round" ∧ "K1" = "K1".
Proof.
  apply (verify_request_determines_claim_and_key
           "The Earth is round" "K1" "The Earth is round" "K1").
  reflexivity.
Defined.

(** The prompt of [find_similar] does not delimit its two arguments: a target
    that spells out the template's own lines gives, with an empty attribute,
    the very prompt of an empty target with another attribute. *)
Theorem similar_prompt_is_ambiguous :
  let attribute_line := newline +:+ "Attribute to compare: " in
  let analyze_line :=
    newline +:+ newline
    +:+ "Analyze the target and find similar items based on the " +:+ dquote in
  let target1 := EmptyString in
  let attribute1 := attribute_line +:+ analyze_line in
  let target2 :=
    attribute_line +:+ attribute_line +:+ analyze_line +:+ analyze_line in
  let attribute2 := EmptyString in
  (target1, attribute1) ≠ (target2, attribute2)
  ∧ similar_requestPayload target1 attribute1
    = similar_requestPayload target2 attribute2.
Proof. split; [discriminate | vm_compute; reflexivity]. Qed.

(** ** The test clients *)

(** A test client calls a tool only after connecting and listing the tools,
    only when the list names [verify_claim], and then calls exactly that
    tool, once, with the script's fixed claim; it never calls
    [find_similar]. *)
Theorem test_client_calls_only_listed_verify_claim
    script argv2 sdk tool claim :
  TestClient.CallTool tool claim ∈ (TestClient.main script argv2 sdk).2 →
  tool = "verify_claim"
  ∧ claim = TestClient.testClaim script
  ∧ (∃ u, TestClient.connect sdk
            (TestClient.origin argv2 +:+ TestClient.path script)
          = TestClient.Resolved u)
  ∧ (∃ result, TestClient.listTools sdk = TestClient.Resolved result
               ∧ TestClient.lists_verify_claim result = true)
  ∧ (TestClient.main script argv2 sdk).2
    = [ TestClient.Connect
          (TestClient.origin argv2 +:+ TestClient.path script);
        TestClient.ListTools;
        TestClient.CallTool "verify_claim" (TestClient.testClaim script) ].
Proof.
  unfold TestClient.main.
  destruct (TestClient.url_parses sdk _); simpl;
    [|by intros ?%elem_of_nil].
  destruct (TestClient.connect sdk _) as [u|error]; simpl.
  2:{ intros Hin. apply list_elem_of_singleton in Hin. done. }
  destruct (TestClient.listTools sdk) as [result|error]; simpl.
  2:{ intros Hin. repeat (apply elem_of_cons in Hin as [?|Hin]; [done|]).
      by apply elem_of_nil in Hin. }
  destruct (TestClient.lists_verify_claim result) eqn:Hlisted.
  2:{ intros Hin. repeat (apply elem_of_cons in Hin as [?|Hin]; [done|]).
      by apply elem_of_nil in Hin. }
  assert (∀ exit : TestClient.Exit,
            TestClient.CallTool tool claim
            ∈ (exit, [ TestClient.Connect
                         (TestClient.origin argv2 +:+ TestClient.path script);
                       TestClient.ListTools;
                       TestClient.CallTool "verify_claim"
                         (TestClient.testClaim script) ]).2 →
            tool = "verify_claim" ∧ claim = TestClient.testClaim script)
    as Hcall.
  { intros exit Hin. simpl in Hin.
    apply elem_of_cons in Hin as [?|Hin]; [done|].
    apply elem_of_cons in Hin as [?|Hin]; [done|].
    apply list_elem_of_singleton in Hin. by injection Hin. }
  destruct (TestClient.callTool sdk _ _) as [answer|error];
    intros Hin; destruct (Hcall _ Hin) as [-> ->]; by eauto 10.
Qed.

Lemma test_client_calls_witness :
  (TestClient.main TestClient.Sse None (TestClient.healthy (Str "ok"))).2
  = [ TestClient.Connect "https://reka-research-mcp-server.vercel.app/sse";
      TestClient.ListTools;
      TestClient.CallTool "verify_claim" "The Earth is round" ].
Proof.
  destruct (test_client_calls_only_listed_verify_claim
              TestClient.Sse None (TestClient.healthy (Str "ok"))
              "verify_claim" "The Earth is round")
    as (_ & _ & _ & _ & Hcalls).
  - vm_compute. do 2 apply list_elem_of_further. apply list_elem_of_here.
  - exact Hcalls.
Defined.

(** A test client ends normally exactly when every step it takes succeeds:
    the URL parses, the connection is made, the tools are listed and, when
    [verify_claim] is among them, the call resolves.  No failure is
    swallowed. *)
Theorem test_client_completes_iff_every_step_succeeds script argv2 sdk :
  (TestClient.main script argv2 sdk).1 = TestClient.Completed
  ↔ TestClient.url_parses sdk
      (TestClient.origin argv2 +:+ TestClient.path script) = true
    ∧ (∃ u, TestClient.connect sdk
              (TestClient.origin argv2 +:+ TestClient.path script)
            = TestClient.Resolved u)
    ∧ ∃ result,
        TestClient.listTools sdk = TestClient.Resolved result
        ∧ (TestClient.lists_verify_claim result = true →
           ∃ answer,
             TestClient.callTool sdk "verify_claim"
               (TestClient.testClaim script)
             = TestClient.Resolved answer).
Proof.
  unfold TestClient.main.
  destruct (TestClient.url_parses sdk _); simpl; [|by split; [|intros [? _]]].
  destruct (TestClient.connect sdk _) as [u|error]; simpl.
  2:{ split; [by destruct error|]. by intros (_ & [? ?] & _). }
  destruct (TestClient.listTools sdk) as [result|error]; simpl.
  2:{ split; [by destruct error|]. by intros (_ & _ & ? & ? & _). }
  destruct (TestClient.lists_verify_claim result) eqn:Hlisted.
  - destruct (TestClient.callTool sdk _ _) as [answer|error]; simpl.
    + split; [|done]. intros _. repeat split; [by eauto|].
      exists result. by eauto.
    + split; [by destruct error|].
      intros (_ & _ & result' & [= <-] & Hcall).
      rewrite Hlisted in Hcall. by destruct Hcall as [? ?].
  - simpl. split; [|done]. intros _. repeat split; [by eauto|].
    exists result. split; [done|]. by rewrite Hlisted.
Qed.

Lemma test_client_completes_witness :
  (TestClient.main TestClient.StreamableHttp (Some "http://localhost:3000")
     (TestClient.healthy (Str "ok"))).1
  = TestClient.Completed.
Proof.
  apply (proj2 (test_client_completes_iff_every_step_succeeds
                  TestClient.StreamableHttp (Some "http://localhost:3000")
                  (TestClient.healthy (Str "ok")))).
  split; [reflexivity|]. split; [by exists tt|].
  eexists. split; [reflexivity|]. intros _. by exists (Str "ok").
Defined.
